(** * The chart data-provisioning effect of [GraphComponent]

    A shallow embedding of [src/frontend/src/app/graph.tsx]: the body of the
    [useEffect] callback, which hands a series of OHLCV bars to a KLineChart
    instance through a chain of four candidate entry points and then sets the
    displayed symbol and period.

    The chart is an external object whose methods may be absent, may throw,
    may write to the console and may change any object they can reach, the
    array they are handed included.  The embedding therefore keeps
    - a store of array objects ([heap]) next to the widget's own state, so
      that the array literal [sampleData] is one object passed by reference;
    - a small state-and-exception monad with an output trace, in which
      [try { .. } catch (e) { .. }] is the combinator [try_catch];
    - a trace of what the effect itself did: its console entries and its
      invocations on the chart, each with how the invocation completed. *)

From Stdlib Require Import QArith.
From stdpp Require Import gmap strings list fin_maps.

Close Scope Q_scope.

(** ** Data: bars, series and thrown values *)

(** [interface BarData]: the numeric fields are JavaScript numbers; the
    literals of the source are decimal fractions, kept here as rationals. *)
Record BarData := {
  timestamp : Z;
  open : Q;
  high : Q;
  low : Q;
  close : Q;
  volume : Q;
}.

(** [BarData[]], the content of an array object. *)
Abbreviation Series := (list BarData).

(** Arrays are objects: what is passed around is a reference. *)
Abbreviation loc := positive.

(** What a [throw] carries.  Calling a property that is not a function
    raises a [TypeError]; a method that exists may raise anything. *)
Inductive Thrown :=
| TypeError (message : string)
| Raised (message : string).

(** How a statement or a call completes. *)
Inductive Completion (A : Type) :=
| Normal (a : A)
| Throw (e : Thrown).
Arguments Normal {A} a.
Arguments Throw {A} e.

(** ** Console *)

Inductive Arg :=
| Str (s : string)
| Ref (l : loc)
| Err (e : Thrown)
| ChartObj.

Inductive ConsoleEntry :=
| LogEntry (args : list Arg)
| ErrorEntry (args : list Arg).

(** ** The environment and the monad *)

(** Everything a piece of JavaScript can read and write here: the array
    objects and the state of the widget, whose type [W] is left open. *)
Record Env (W : Type) := {
  heap : gmap loc Series;
  widget : W;
}.
Arguments heap {W} e.
Arguments widget {W} e.

(** A computation over the environment that appends to an output trace of
    alphabet [O] and completes normally or by a throw. *)
Definition M (O W A : Type) : Type := Env W → Env W * list O * Completion A.

Definition ret {O W A} (a : A) : M O W A :=
  λ σ, (σ, [], Normal a).

Definition bind {O W A B} (m : M O W A) (k : A → M O W B) : M O W B :=
  λ σ,
    let '(σ1, o1, r1) := m σ in
    match r1 with
    | Normal a => let '(σ2, o2, r2) := k a σ1 in (σ2, o1 ++ o2, r2)
    | Throw e => (σ1, o1, Throw e)
    end.

(** [try { m } catch (e) { h e }] *)
Definition try_catch {O W A} (m : M O W A) (h : Thrown → M O W A) : M O W A :=
  λ σ,
    let '(σ1, o1, r1) := m σ in
    match r1 with
    | Normal a => (σ1, o1, Normal a)
    | Throw e => let '(σ2, o2, r2) := h e σ1 in (σ2, o1 ++ o2, r2)
    end.

Definition emit {O W} (o : O) : M O W unit :=
  λ σ, (σ, [o], Normal tt).

(** Evaluating an array literal allocates a new object. *)
Definition alloc {O W} (content : Series) : M O W loc :=
  λ σ,
    let l := fresh (dom (heap σ)) in
    ({| heap := <[l := content]> (heap σ); widget := widget σ |}, [], Normal l).

Declare Scope js_scope.
Delimit Scope js_scope with js.
Notation "x <- m ;; k" := (bind m (λ x, k))
  (at level 100, m at next level, right associativity) : js_scope.
Notation "m ;;; k" := (bind m (λ _, k))
  (at level 100, right associativity) : js_scope.
Notation "'try' m 'catch' e => h" := (try_catch m (λ e, h))
  (at level 100, m at level 200, e name, h at level 200) : js_scope.
Open Scope js_scope.

Definition env_of {O W A} (x : Env W * list O * Completion A) : Env W := x.1.1.
Definition out_of {O W A} (x : Env W * list O * Completion A) : list O := x.1.2.
Definition completion_of {O W A} (x : Env W * list O * Completion A) : Completion A := x.2.

(** ** The chart handle *)

(** A method of the widget, or a callback it supplies: external code that
    receives an argument, may change the environment, may write to the
    console, and returns or throws. *)
Definition Method (W X : Type) : Type := X → M ConsoleEntry W unit.

(** [type GetBarsCallback = (data: BarData[]) => void] *)
Definition GetBarsCallback (W : Type) : Type := Method W loc.

(** [interface GetBarsParams].  The interface declares [callback] only; the
    object the widget passes at run time may carry any further properties
    (its request), kept in [request]. *)
Record GetBarsParams (W P : Type) := {
  callback : GetBarsCallback W;
  request : P;
}.
Arguments callback {W P} g.
Arguments request {W P} g.

(** [interface DataLoader] *)
Record DataLoader (W : Type) := {
  getBars : ∀ P : Type, Method W (GetBarsParams W P);
}.
Arguments getBars {W} d P.

Record SymbolInfo := { ticker : string }.
Record Period := { span : Z; type : string }.

(** The chart as the effect sees it through [(chart as any)]: each of the six
    properties it calls is a function or is not there. *)
Record Chart (W : Type) := {
  setDataLoader : option (Method W (DataLoader W));
  applyNewData : option (Method W loc);
  setData : option (Method W loc);
  loadData : option (Method W loc);
  setSymbol : option (Method W SymbolInfo);
  setPeriod : option (Method W Period);
}.
Arguments setDataLoader {W} c.
Arguments applyNewData {W} c.
Arguments setData {W} c.
Arguments loadData {W} c.
Arguments setSymbol {W} c.
Arguments setPeriod {W} c.

(** ** The trace of the effect *)

(** Which property of the chart a call goes to, with its argument (the data
    loader is a closure and is left out of the label). *)
Inductive Call :=
| call_setDataLoader
| call_applyNewData (data : loc)
| call_setData (data : loc)
| call_loadData (data : loc)
| call_setSymbol (symbol : SymbolInfo)
| call_setPeriod (period : Period).

(** One step of the effect that is visible outside it: a console entry of
    its own, or a call on the chart together with what the widget printed
    during the call and how the call completed. *)
Inductive Event :=
| Console (entry : ConsoleEntry)
| Invoke (c : Call) (printed : list ConsoleEntry) (r : Completion unit).

Class ConsoleOut (O : Type) := of_console : ConsoleEntry → O.
#[export] Instance console_out_entry : ConsoleOut ConsoleEntry := λ c, c.
#[export] Instance console_out_event : ConsoleOut Event := Console.

Definition console_log {O W} `{ConsoleOut O} (args : list Arg) : M O W unit :=
  emit (of_console (LogEntry args)).

Definition console_error {O W} `{ConsoleOut O} (args : list Arg) : M O W unit :=
  emit (of_console (ErrorEntry args)).

(** [(chart as any).name(x)]: a [TypeError] when the property is not a
    function, the method's own behaviour otherwise. *)
Definition invoke {W X} (c : Call) (name : string)
    (m : option (Method W X)) (x : X) : M Event W unit :=
  λ σ,
    match m with
    | None =>
        let e := TypeError ("chart." +:+ name +:+ " is not a function") in
        (σ, [Invoke c [] (Throw e)], Throw e)
    | Some f =>
        let '(σ1, printed, r) := f x σ in
        (σ1, [Invoke c printed r], r)
    end.

(** ** The source *)

(** The cleanup function returned to React: [() => { dispose("chart") }]. *)
Inductive Cleanup := dispose (id : string).

(** The array literal of the source (lines 42-123). *)
Definition sampleData : Series := [
  {| timestamp := 1517846400000; open := 7424.6; high := 7511.3;
     low := 6032.3; close := 7310.1; volume := 224461 |};
  {| timestamp := 1517932800000; open := 7310.1; high := 8499.9;
     low := 6810; close := 8165.4; volume := 148807 |};
  {| timestamp := 1518019200000; open := 8166.7; high := 8700.8;
     low := 7400; close := 8245.1; volume := 24467 |};
  {| timestamp := 1518105600000; open := 8244; high := 8494;
     low := 7760; close := 8364; volume := 29834 |};
  {| timestamp := 1518192000000; open := 8363.6; high := 9036.7;
     low := 8269.8; close := 8311.9; volume := 28203 |};
  {| timestamp := 1518278400000; open := 8301; high := 8569.4;
     low := 7820.2; close := 8426; volume := 59854 |};
  {| timestamp := 1518364800000; open := 8426; high := 8838;
     low := 8024; close := 8640; volume := 54457 |};
  {| timestamp := 1518451200000; open := 8640; high := 8976.8;
     low := 8360; close := 8500; volume := 51156 |};
  {| timestamp := 1518537600000; open := 8504.9; high := 9307.3;
     low := 8474.3; close := 9307.3; volume := 49118 |};
  {| timestamp := 1518624000000; open := 9307.3; high := 9897;
     low := 9182.2; close := 9774; volume := 48092 |}
]%Q.

(** [const dataLoader: DataLoader = { getBars: ({ callback }) => { .. } }]
    (lines 131-136); [sampleData] is the reference the closure captures. *)
Definition dataLoader {W} (sampleData : loc) : DataLoader W := {|
  getBars := λ P params,
    console_log [Str "getBars called, providing data..."] ;;;
    callback params sampleData
|}.

(** The body of the [useEffect] callback (lines 28-182).  [chart] is what
    [init("chart")] returned, [None] for [null]; [data] is the content of
    the array literal, a parameter here so that the effect can be stated
    for every series.  The result is what the callback returns to React:
    the cleanup function, or [undefined] on the early return. *)
Definition GraphComponent_effect {W} (chart : option (Chart W)) (data : Series)
    : M Event W (option Cleanup) :=
  match chart with
  | None =>
      console_error [Str "Failed to initialize KLineChart"] ;;;
      ret None
  | Some chart =>
      (try
         sampleData <- alloc data ;;
         console_log [Str "Chart initialized:"; ChartObj] ;;;
         console_log [Str "Sample data:"; Ref sampleData] ;;;
         (try
            invoke call_setDataLoader "setDataLoader"
              (setDataLoader chart) (dataLoader sampleData) ;;;
            console_log [Str "setDataLoader called successfully"]
          catch loaderError =>
            console_log [Str "setDataLoader failed, trying alternative methods:";
                         Err loaderError] ;;;
            (try
               invoke (call_applyNewData sampleData) "applyNewData"
                 (applyNewData chart) sampleData ;;;
               console_log [Str "applyNewData called successfully"]
             catch applyError =>
               console_log [Str "applyNewData failed:"; Err applyError] ;;;
               (try
                  invoke (call_setData sampleData) "setData"
                    (setData chart) sampleData ;;;
                  console_log [Str "setData called successfully"]
                catch setDataError =>
                  console_log [Str "setData failed:"; Err setDataError] ;;;
                  (try
                     invoke (call_loadData sampleData) "loadData"
                       (loadData chart) sampleData ;;;
                     console_log [Str "loadData called successfully"]
                   catch loadError =>
                     console_log [Str "loadData failed:"; Err loadError] ;;;
                     console_error [Str "All data loading methods failed"])))) ;;;
         invoke (call_setSymbol {| ticker := "TestSymbol" |}) "setSymbol"
           (setSymbol chart) {| ticker := "TestSymbol" |} ;;;
         invoke (call_setPeriod {| span := 1; type := "day" |}) "setPeriod"
           (setPeriod chart) {| span := 1; type := "day" |}
       catch error =>
         console_error [Str "Error setting up chart:"; Err error]) ;;;
      ret (Some (dispose "chart"))
  end.

(** The effect as it runs when the component mounts: on the array literal
    of the source. *)
Definition GraphComponent_mounted {W} (chart : option (Chart W))
    : M Event W (option Cleanup) :=
  GraphComponent_effect chart sampleData.

(** ** Observations on traces *)

Definition invocations (evs : list Event) : list (Call * Completion unit) :=
  omap (λ ev, match ev with Invoke c _ r => Some (c, r) | Console _ => None end) evs.

Definition reports (evs : list Event) : list ConsoleEntry :=
  omap (λ ev, match ev with Console entry => Some entry | Invoke _ _ _ => None end) evs.

Definition calls (evs : list Event) : list Call := (invocations evs).*1.

(** The four data-loading entry points, as opposed to the two
    configuration calls. *)
Definition is_strategy (c : Call) : bool :=
  match c with
  | call_setSymbol _ | call_setPeriod _ => false
  | _ => true
  end.

Definition returned (r : Completion unit) : bool :=
  match r with Normal _ => true | Throw _ => false end.

Definition strategy_invocations (evs : list Event) : list (Call * Completion unit) :=
  filter (λ i, is_strategy i.1 = true) (invocations evs).

Definition config_invocations (evs : list Event) : list (Call * Completion unit) :=
  filter (λ i, is_strategy i.1 = false) (invocations evs).

(** Some data-loading call of the trace returned without throwing. *)
Definition strategy_succeeded (evs : list Event) : bool :=
  existsb (λ i, is_strategy i.1 && returned i.2) (invocations evs).

(** Some configuration call was attempted. *)
Definition config_attempted (evs : list Event) : bool :=
  existsb (λ c, negb (is_strategy c)) (calls evs).

Definition method_name (c : Call) : string :=
  match c with
  | call_setDataLoader => "setDataLoader"
  | call_applyNewData _ => "applyNewData"
  | call_setData _ => "setData"
  | call_loadData _ => "loadData"
  | call_setSymbol _ => "setSymbol"
  | call_setPeriod _ => "setPeriod"
  end.

(** The order in which the source tries the entry points, on the array
    reference [l]. *)
Definition strategies (l : loc) : list Call :=
  [call_setDataLoader; call_applyNewData l; call_setData l; call_loadData l].

Definition the_symbol : SymbolInfo := {| ticker := "TestSymbol" |}.
Definition the_period : Period := {| span := 1; type := "day" |}.

Definition configuration : list Call :=
  [call_setSymbol the_symbol; call_setPeriod the_period].

(** The console entries of the source, by the place they are written. *)
Definition prologue (l : loc) : list Event :=
  [Console (LogEntry [Str "Chart initialized:"; ChartObj]);
   Console (LogEntry [Str "Sample data:"; Ref l])].

Definition success_report (c : Call) : ConsoleEntry :=
  LogEntry [Str (method_name c +:+ " called successfully")].

Definition failure_report (c : Call) (e : Thrown) : ConsoleEntry :=
  match c with
  | call_setDataLoader =>
      LogEntry [Str "setDataLoader failed, trying alternative methods:"; Err e]
  | _ => LogEntry [Str (method_name c +:+ " failed:"); Err e]
  end.

Definition all_failed_report : ConsoleEntry :=
  ErrorEntry [Str "All data loading methods failed"].

Definition setup_error_report (e : Thrown) : ConsoleEntry :=
  ErrorEntry [Str "Error setting up chart:"; Err e].

(** The trace of a fallback chain over the entry points [cs]: each call that
    throws is followed by its failure entry and by the chain over the rest;
    a call that returns is followed by its success entry and ends the chain;
    a chain that runs out of entry points ends with the all-failed entry. *)
Inductive strategy_chain : list Call → list Event → Prop :=
| chain_success c cs printed :
    strategy_chain (c :: cs)
      [Invoke c printed (Normal tt); Console (success_report c)]
| chain_failure c cs printed e evs :
    strategy_chain cs evs →
    strategy_chain (c :: cs)
      (Invoke c printed (Throw e) :: Console (failure_report c e) :: evs)
| chain_exhausted :
    strategy_chain [] [Console all_failed_report].

(** The trace of lines 172-175: [setSymbol], then [setPeriod] unless
    [setSymbol] threw; a throw of either lands in the outer [catch]. *)
Inductive config_tail : list Event → Prop :=
| config_both p1 p2 :
    config_tail [Invoke (call_setSymbol the_symbol) p1 (Normal tt);
                 Invoke (call_setPeriod the_period) p2 (Normal tt)]
| config_symbol_failed p1 e :
    config_tail [Invoke (call_setSymbol the_symbol) p1 (Throw e);
                 Console (setup_error_report e)]
| config_period_failed p1 p2 e :
    config_tail [Invoke (call_setSymbol the_symbol) p1 (Normal tt);
                 Invoke (call_setPeriod the_period) p2 (Throw e);
                 Console (setup_error_report e)].

(** ** The environment as the chart's methods leave it *)

(** What a call does to the environment: nothing when the property is not
    a function, what the method does otherwise. *)
Definition step_env {W X} (m : option (Method W X)) (x : X) (σ : Env W) : Env W :=
  match m with
  | None => σ
  | Some f => env_of (f x σ)
  end.

Definition apply_call {W} (chart : Chart W) (l : loc) (σ : Env W) (c : Call) : Env W :=
  match c with
  | call_setDataLoader => step_env (setDataLoader chart) (dataLoader l) σ
  | call_applyNewData d => step_env (applyNewData chart) d σ
  | call_setData d => step_env (setData chart) d σ
  | call_loadData d => step_env (loadData chart) d σ
  | call_setSymbol s => step_env (setSymbol chart) s σ
  | call_setPeriod p => step_env (setPeriod chart) p σ
  end.

(** The environment after the calls [cs], made one after the other. *)
Definition replay {W} (chart : Chart W) (l : loc) (cs : list Call) (σ : Env W) : Env W :=
  foldl (apply_call chart l) σ cs.

(** The environment once the array literal has been evaluated. *)
Definition allocated {W} (σ : Env W) (data : Series) : Env W :=
  {| heap := <[fresh (dom (heap σ)) := data]> (heap σ); widget := widget σ |}.

(** A method leaves the array at [l] as it is. *)
Definition keeps {W X} (l : loc) (m : option (Method W X)) (x : X) : Prop :=
  ∀ σ, heap (step_env m x σ) !! l = heap σ !! l.

Definition chart_keeps {W} (l : loc) (chart : Chart W) : Prop :=
  keeps l (setDataLoader chart) (dataLoader l)
  ∧ keeps l (applyNewData chart) l
  ∧ keeps l (setData chart) l
  ∧ keeps l (loadData chart) l
  ∧ keeps l (setSymbol chart) the_symbol
  ∧ keeps l (setPeriod chart) the_period.

(** ** Charts to run the effect on *)

(** A method that looks at the widget's state only: neither at its argument
    nor at the arrays. *)
Definition oblivious {W X} (g : W → W * list ConsoleEntry * Completion unit)
    : Method W X :=
  λ _ σ,
    let '(w, printed, r) := g (widget σ) in
    ({| heap := heap σ; widget := w |}, printed, r).

Definition oblivious_chart {W}
    (g1 g2 g3 g4 g5 g6 : option (W → W * list ConsoleEntry * Completion unit))
    : Chart W := {|
  setDataLoader := oblivious <$> g1;
  applyNewData := oblivious <$> g2;
  setData := oblivious <$> g3;
  loadData := oblivious <$> g4;
  setSymbol := oblivious <$> g5;
  setPeriod := oblivious <$> g6;
|}.

(** A chart whose entry points are absent ([None]) or complete in a fixed
    way without doing anything. *)
Definition scripted {W} (r1 r2 r3 r4 r5 r6 : option (Completion unit)) : Chart W :=
  let fixed (r : Completion unit) (w : W) := (w, @nil ConsoleEntry, r) in
  oblivious_chart (fixed <$> r1) (fixed <$> r2) (fixed <$> r3)
                  (fixed <$> r4) (fixed <$> r5) (fixed <$> r6).

(** A widget that keeps the datasets it was given, in the order received. *)
Definition store_bars : GetBarsCallback (list Series) :=
  λ data σ,
    ({| heap := heap σ; widget := widget σ ++ [default [] (heap σ !! data)] |},
     [], Normal tt).

Fixpoint pull {P} (n : nat) (loader : DataLoader (list Series)) (req : P)
    : M ConsoleEntry (list Series) unit :=
  match n with
  | O => ret tt
  | S n =>
      getBars loader P {| callback := store_bars; request := req |} ;;;
      pull n loader req
  end.

(** A chart with the data-loader entry point of KLineChart v10: on
    registration it asks the loader for bars [n] times, each time with the
    request [req], and it accepts the symbol and the period. *)
Definition pulling_chart {P} (n : nat) (req : P) : Chart (list Series) := {|
  setDataLoader := Some (λ loader, pull n loader req);
  applyNewData := None;
  setData := None;
  loadData := None;
  setSymbol := Some (λ _, ret tt);
  setPeriod := Some (λ _, ret tt);
|}.

Definition empty_env {W} (w : W) : Env W := {| heap := ∅; widget := w |}.

(** ** Errors on the trace *)

Definition entry_args (entry : ConsoleEntry) : list Arg :=
  match entry with LogEntry args | ErrorEntry args => args end.

(** Written with [console.error]. *)
Definition is_error_entry (entry : ConsoleEntry) : bool :=
  match entry with ErrorEntry _ => true | LogEntry _ => false end.

(** The values the calls of a trace threw, in the order of the calls. *)
Definition thrown_values (invs : list (Call * Completion unit)) : list Thrown :=
  omap (λ i, match i.2 with Throw e => Some e | Normal _ => None end) invs.

(** The thrown values that console entries show, in the order written. *)
Definition reported_errors (entries : list ConsoleEntry) : list Thrown :=
  omap (λ a, match a with Err e => Some e | _ => None end)
       (concat (entry_args <$> entries)).

(** Some configuration call of the trace threw. *)
Definition config_failed (evs : list Event) : bool :=
  existsb (λ i, negb (is_strategy i.1) && negb (returned i.2)) (invocations evs).

(** ** Entry points as the effect calls them *)

(** The entry point behind a call, applied to the argument of the call;
    [None] when the chart has no such function.  [l] is the array the data
    loader closes over. *)
Definition as_called {W} (chart : Chart W) (l : loc) (c : Call)
    : option (M ConsoleEntry W unit) :=
  match c with
  | call_setDataLoader => (λ f, f (dataLoader l)) <$> setDataLoader chart
  | call_applyNewData d => (λ f, f d) <$> applyNewData chart
  | call_setData d => (λ f, f d) <$> setData chart
  | call_loadData d => (λ f, f d) <$> loadData chart
  | call_setSymbol s => (λ f, f s) <$> setSymbol chart
  | call_setPeriod p => (λ f, f p) <$> setPeriod chart
  end.

(** Both absent, or both present and doing the same in every environment. *)
Definition same_behaviour {W} (o1 o2 : option (M ConsoleEntry W unit)) : Prop :=
  match o1, o2 with
  | Some m1, Some m2 => ∀ σ, m1 σ = m2 σ
  | None, None => True
  | _, _ => False
  end.

(** The [TypeError] of calling a property that is not a function. *)
Definition not_a_function (c : Call) : Thrown :=
  TypeError ("chart." +:+ method_name c +:+ " is not a function").

(** ** What the chart did, as opposed to what the trace says *)

(** Calling the entry point behind [c] on the chart in the environment [σ]:
    the environment it leaves, what it printed and how it completed.  A
    property that is not a function changes nothing, prints nothing and
    throws the [TypeError]. *)
Definition call_result {W} (chart : Chart W) (l : loc) (c : Call) (σ : Env W)
    : Env W * list ConsoleEntry * Completion unit :=
  match as_called chart l c with
  | None => (σ, [], Throw (not_a_function c))
  | Some m => m σ
  end.
Arguments call_result : simpl never.

(** [performs chart l σ evs σ']: the trace [evs] is a true record of calls
    made on [chart], one after the other, from the environment [σ] to the
    environment [σ'].  Every call of the trace was made on the entry point
    its label names, in the environment the calls before it left; what the
    trace says it printed and how it says it completed is what that entry
    point did; and nothing but these calls changed the environment. *)
Inductive performs {W} (chart : Chart W) (l : loc)
    : Env W → list Event → Env W → Prop :=
| performs_nil σ :
    performs chart l σ [] σ
| performs_console σ entry evs σ' :
    performs chart l σ evs σ' →
    performs chart l σ (Console entry :: evs) σ'
| performs_invoke σ c σ1 printed r evs σ' :
    call_result chart l c σ = (σ1, printed, r) →
    performs chart l σ1 evs σ' →
    performs chart l σ (Invoke c printed r :: evs) σ'.

(** The first of the entry points [cs] that returns when they are called in
    turn on the chart, each in the environment the one before it left;
    [None] when every one of them throws. *)
Fixpoint winner {W} (chart : Chart W) (l : loc) (cs : list Call) (σ : Env W)
    : option Call :=
  match cs with
  | [] => None
  | c :: cs =>
      match completion_of (call_result chart l c σ) with
      | Normal _ => Some c
      | Throw _ => winner chart l cs (env_of (call_result chart l c σ))
      end
  end.

(** A chart without a data loader whose [applyNewData] cuts the array it is
    given down to its first bar and then throws, and whose [setData] keeps
    what it is given. *)
Definition truncating_chart : Chart (list Series) := {|
  setDataLoader := None;
  applyNewData := Some (λ data σ,
    ({| heap := alter (take 1) data (heap σ); widget := widget σ |},
     [], Throw (Raised "rejected")));
  setData := Some store_bars;
  loadData := None;
  setSymbol := Some (λ _, ret tt);
  setPeriod := Some (λ _, ret tt);
|}.

(** ** The component around the effect *)

(** The element the component renders (lines 185-195). *)
Record Element := {
  tag : string;
  element_id : string;
  style : list (string * string);
}.

Definition GraphComponent_render : Element := {|
  tag := "div";
  element_id := "chart";
  style := [("width", "600px"); ("height", "600px");
            ("border", "1px solid #ccc"); ("borderRadius", "4px")];
|}.

(** The two functions imported from klinecharts (line 2). *)
Inductive LibCall :=
| lib_init (id : string)
| lib_dispose (id : string).

(** A step of the component's life: a call into the library, with what it
    printed and what it threw if it threw, or a step of the effect. *)
Inductive Step :=
| Library (c : LibCall) (printed : list ConsoleEntry) (threw : option Thrown)
| Effect (ev : Event).

Definition thrown_of {A} (r : Completion A) : option Thrown :=
  match r with Normal _ => None | Throw e => Some e end.

Definition library {W A} (c : LibCall) (m : M ConsoleEntry W A) : M Step W A :=
  λ σ,
    let '(σ1, printed, r) := m σ in
    (σ1, [Library c printed (thrown_of r)], r).

Definition lift_effect {W A} (m : M Event W A) : M Step W A :=
  λ σ,
    let '(σ1, evs, r) := m σ in
    (σ1, Effect <$> evs, r).

(** The whole [useEffect] callback (lines 28-182): [init("chart")], outside
    any [try], and then the body embedded above.  [init] stands for the
    library function, of which nothing is assumed. *)
Definition GraphComponent_useEffect {W}
    (init : string → M ConsoleEntry W (option (Chart W))) (data : Series)
    : M Step W (option Cleanup) :=
  chart <- library (lib_init "chart") (init "chart") ;;
  lift_effect (GraphComponent_effect chart data).

(** Running the cleanup function: [dispose("chart")] (lines 179-181). *)
Definition run_cleanup {W} (lib_dispose_fn : Method W string) (f : Cleanup)
    : M Step W unit :=
  match f with
  | dispose id => library (lib_dispose id) (lib_dispose_fn id)
  end.

(** [useEffect(.., [])] over the life of the component: React runs the
    callback once after mounting and, at unmounting, the function the
    callback returned, if it returned one. *)
Definition mount_then_unmount {W}
    (init : string → M ConsoleEntry W (option (Chart W)))
    (lib_dispose_fn : Method W string) (data : Series) : M Step W unit :=
  cleanup <- GraphComponent_useEffect init data ;;
  match cleanup with
  | Some f => run_cleanup lib_dispose_fn f
  | None => ret tt
  end.

Definition lib_calls (steps : list Step) : list LibCall :=
  omap (λ st, match st with Library c _ _ => Some c | Effect _ => None end) steps.

Definition effect_events (steps : list Step) : list Event :=
  omap (λ st, match st with Effect ev => Some ev | Library _ _ _ => None end) steps.

(** * Properties *)

(** ** The shape of every run *)

Lemma invoke_shape {W X} c name (m : option (Method W X)) x σ :
  ∃ printed r, invoke c name m x σ = (step_env m x σ, [Invoke c printed r], r).
Proof.
  unfold invoke, step_env. destruct m as [f|]; [|by eauto].
  destruct (f x σ) as [[σ1 printed] r]. by eauto.
Qed.

Ltac run_invoke :=
  match goal with
  | |- context [invoke ?c ?n ?m ?x ?σ] =>
      let E := fresh "E" in
      destruct (invoke_shape c n m x σ) as (? & [[]|?] & E);
      rewrite E; clear E; simpl
  end.

(** On a chart that is not [null] the effect allocates the array, writes its
    two opening entries, runs the fallback chain and the configuration
    calls, and returns the cleanup function; the environment it leaves is
    the one its calls on the chart produced. *)
Lemma effect_shape {W} (chart : Chart W) data σ :
  let l := fresh (dom (heap σ)) in
  ∃ S C,
    strategy_chain (strategies l) S
    ∧ config_tail C
    ∧ GraphComponent_effect (Some chart) data σ =
        (replay chart l (calls (S ++ C)) (allocated σ data),
         prologue l ++ S ++ C,
         Normal (Some (dispose "chart"))).
Proof.
  intros l.
  unfold GraphComponent_effect, try_catch, bind, alloc,
    console_log, console_error, emit, ret.
  simpl. fold l. fold (allocated σ data).
  repeat run_invoke;
    eexists _, _;
    (split; [repeat econstructor | split; [econstructor | reflexivity]]).
Qed.

(** ** Fallback chains *)

Lemma invocations_app evs1 evs2 :
  invocations (evs1 ++ evs2) = invocations evs1 ++ invocations evs2.
Proof. apply omap_app. Qed.

Lemma reports_app evs1 evs2 :
  reports (evs1 ++ evs2) = reports evs1 ++ reports evs2.
Proof. apply omap_app. Qed.

Lemma chain_calls_prefix cs S :
  strategy_chain cs S → calls S `prefix_of` cs.
Proof.
  unfold calls. induction 1 as [c cs p|c cs p e evs _ IH|]; simpl.
  - by apply prefix_cons, prefix_nil.
  - by apply prefix_cons.
  - done.
Qed.

Lemma chain_only_after_failures cs S :
  strategy_chain cs S →
  ∀ i c r, invocations S !! i = Some (c, r) →
  ∀ j, j < i → ∃ c' e, invocations S !! j = Some (c', Throw e).
Proof.
  induction 1 as [c cs p|c cs p e evs _ IH|]; simpl; intros i c0 r Hi j Hj.
  - destruct i as [|i]; [lia | done].
  - destruct j as [|j]; [by eauto|].
    destruct i as [|i]; [lia|]. simpl in *. eapply IH; [done | lia].
  - done.
Qed.

Lemma chain_attempted_after_failures cs S :
  strategy_chain cs S →
  ∀ i, i < length cs →
  (∀ j, j < i → ∃ c e, invocations S !! j = Some (c, Throw e)) →
  i < length (invocations S).
Proof.
  induction 1 as [c cs p|c cs p e evs _ IH|]; simpl; intros i Hi Hfail.
  - destruct i as [|i]; [lia|].
    destruct (Hfail 0) as (? & ? & ?); [lia | done].
  - destruct i as [|i]; [lia|].
    cut (i < length (invocations evs)); [lia|].
    apply IH; [lia|].
    intros j Hj. apply (Hfail (S j)). lia.
  - lia.
Qed.

Lemma chain_at_most_one_success cs S :
  strategy_chain cs S →
  length (filter (λ i, returned i.2 = true) (invocations S)) ≤ 1.
Proof.
  induction 1 as [c cs p|c cs p e evs _ IH|]; simpl.
  - lia.
  - done.
  - lia.
Qed.

Lemma chain_all_strategies cs S :
  strategy_chain cs S →
  Forall (λ c, is_strategy c = true) cs →
  filter (λ i, is_strategy i.1 = true) (invocations S) = invocations S.
Proof.
  induction 1 as [c cs p|c cs p e evs _ IH|]; simpl; intros Hcs.
  - apply Forall_cons in Hcs as [Hc _]. by rewrite filter_cons_True.
  - apply Forall_cons in Hcs as [Hc Hcs]. rewrite filter_cons_True by done.
    f_equal. by apply IH.
  - done.
Qed.

Lemma config_tail_no_strategy C :
  config_tail C → filter (λ i, is_strategy i.1 = true) (invocations C) = [].
Proof. by destruct 1. Qed.

Lemma strategy_invocations_shape l S C :
  strategy_chain (strategies l) S → config_tail C →
  strategy_invocations (prologue l ++ S ++ C) = invocations S.
Proof.
  intros HS HC. unfold strategy_invocations.
  rewrite !invocations_app, !filter_app, (config_tail_no_strategy C HC).
  rewrite (chain_all_strategies _ _ HS) by (unfold strategies; repeat constructor).
  simpl. by rewrite app_nil_r.
Qed.

Ltac invert_chain :=
  repeat match goal with
  | H : strategy_chain (strategies _) _ |- _ => unfold strategies in H
  | H : strategy_chain (_ :: _) _ |- _ => inversion H; subst; clear H
  | H : strategy_chain [] _ |- _ => inversion H; subst; clear H
  end.

(** ** The data loader *)


(** ** The environment *)

Lemma fresh_unallocated {W} (σ : Env W) : heap σ !! fresh (dom (heap σ)) = None.
Proof. apply not_elem_of_dom, is_fresh. Qed.

Lemma allocated_lookup {W} (σ : Env W) data :
  heap (allocated σ data) !! fresh (dom (heap σ)) = Some data.
Proof. apply lookup_insert_eq. Qed.


Lemma apply_call_keeps {W} (chart : Chart W) l c σ :
  chart_keeps l chart →
  c ∈ strategies l ++ configuration →
  heap (apply_call chart l σ c) !! l = heap σ !! l.
Proof.
  intros (H1 & H2 & H3 & H4 & H5 & H6) Hc.
  unfold strategies, configuration in Hc. simpl in Hc.
  repeat (apply elem_of_cons in Hc as [->|Hc]); [..|by apply elem_of_nil in Hc];
    simpl; auto.
Qed.

Lemma replay_keeps {W} (chart : Chart W) l cs σ :
  chart_keeps l chart →
  Forall (λ c, c ∈ strategies l ++ configuration) cs →
  heap (replay chart l cs σ) !! l = heap σ !! l.
Proof.
  intros Hkeeps Hcs. revert σ. unfold replay.
  induction Hcs as [|c cs Hc _ IH]; intros σ; simpl; [done|].
  rewrite IH. by apply apply_call_keeps.
Qed.

Lemma effect_calls_known {W} (chart : Chart W) data σ :
  let l := fresh (dom (heap σ)) in
  Forall (λ c, c ∈ strategies l ++ configuration)
    (calls (out_of (GraphComponent_effect (Some chart) data σ))).
Proof.
  intros l.
  destruct (effect_shape chart data σ) as (S & C & HS & HC & ->).
  fold l in HS. unfold out_of. simpl.
  destruct HC; invert_chain; simpl; repeat constructor;
    unfold strategies, configuration; simpl;
    rewrite !elem_of_cons; by eauto 10.
Qed.

(** ** Charts that do not look at the array *)



(** ** Runs as records of what the chart did *)

Lemma invoke_call_result {W X} (chart : Chart W) l c name
    (m : option (Method W X)) x σ :
  as_called chart l c = (λ f, f x) <$> m →
  name = method_name c →
  invoke c name m x σ =
    (let '(σ1, printed, r) := call_result chart l c σ in
     (σ1, [Invoke c printed r], r)).
Proof.
  intros Hm ->. unfold invoke, call_result. rewrite Hm.
  destruct m as [f|]; simpl; [|done].
  by destruct (f x σ) as [[σ1 printed] r].
Qed.

Lemma apply_call_result {W} (chart : Chart W) l c σ :
  apply_call chart l σ c = env_of (call_result chart l c σ).
Proof.
  unfold call_result.
  destruct c; simpl; unfold step_env;
    match goal with |- context [?proj chart] => destruct (proj chart) end; done.
Qed.

(** A true record leaves the environment its calls produce. *)
Lemma performs_replay {W} (chart : Chart W) l σ evs σ' :
  performs chart l σ evs σ' → σ' = replay chart l (calls evs) σ.
Proof.
  unfold replay, calls.
  induction 1 as [σ|σ entry evs σ' _ IH|σ c σ1 printed r evs σ' Hc _ IH];
    simpl; [done|done|].
  rewrite apply_call_result, Hc. exact IH.
Qed.

Ltac run_call chart l :=
  match goal with
  | |- context [invoke ?c ?n ?m ?x ?σ] =>
      rewrite (invoke_call_result chart l c n m x σ eq_refl eq_refl);
      let E := fresh "E" in
      destruct (call_result chart l c σ) as [[? ?] [[]|?]] eqn:E;
      cbn -[invoke]
  end.

(** Every run on a chart that is not [null] is a fallback chain followed by
    the configuration calls, and a true record of what the chart did from
    the environment in which the array was allocated. *)
Lemma effect_performs {W} (chart : Chart W) data σ :
  let l := fresh (dom (heap σ)) in
  ∃ S C σ',
    strategy_chain (strategies l) S
    ∧ config_tail C
    ∧ performs chart l (allocated σ data) (S ++ C) σ'
    ∧ GraphComponent_effect (Some chart) data σ =
        (σ', prologue l ++ S ++ C, Normal (Some (dispose "chart"))).
Proof.
  intros l.
  unfold GraphComponent_effect, try_catch, bind, alloc,
    console_log, console_error, emit, ret.
  cbn -[invoke]. fold l. fold (allocated σ data).
  repeat run_call chart l;
    eexists _, _, _;
    (split; [repeat econstructor
            |split; [econstructor
                    |split; [|reflexivity]]]);
    simpl; repeat (first [eapply performs_invoke; [eassumption|]
                         |eapply performs_console
                         |eapply performs_nil]).
Qed.

Lemma performs_prologue {W} (chart : Chart W) l σ evs σ' :
  performs chart l σ evs σ' → performs chart l σ (prologue l ++ evs) σ'.
Proof. intros H. by do 2 constructor. Qed.

Ltac invert_performs :=
  repeat match goal with
  | H : performs _ _ _ (_ :: _) _ |- _ => inversion H; subst; clear H
  | H : performs _ _ _ [] _ |- _ => inversion H; subst; clear H
  end.

Ltac agree_calls :=
  repeat match goal with
  | H : call_result ?ch ?l ?c ?s = _, E : call_result ?ch ?l ?c ?s = _ |- _ =>
      rewrite H in E; simplify_eq
  end.

(** ** Runs on concrete charts *)

(** [setDataLoader] and [applyNewData] throw, [setData] returns: the third
    entry point wins, [loadData] is left alone although it is there, and the
    symbol and the period are set. *)
Example run_third_entry_point :
  let chart : Chart unit :=
    scripted (Some (Throw (Raised "no loader"))) (Some (Throw (Raised "no bulk")))
             (Some (Normal tt)) (Some (Normal tt))
             (Some (Normal tt)) (Some (Normal tt)) in
  GraphComponent_mounted (Some chart) (empty_env tt) =
    ({| heap := {[ 1%positive := sampleData ]}; widget := tt |},
     [Console (LogEntry [Str "Chart initialized:"; ChartObj]);
      Console (LogEntry [Str "Sample data:"; Ref 1]);
      Invoke call_setDataLoader [] (Throw (Raised "no loader"));
      Console (LogEntry [Str "setDataLoader failed, trying alternative methods:";
                         Err (Raised "no loader")]);
      Invoke (call_applyNewData 1) [] (Throw (Raised "no bulk"));
      Console (LogEntry [Str "applyNewData failed:"; Err (Raised "no bulk")]);
      Invoke (call_setData 1) [] (Normal tt);
      Console (LogEntry [Str "setData called successfully"]);
      Invoke (call_setSymbol {| ticker := "TestSymbol" |}) [] (Normal tt);
      Invoke (call_setPeriod {| span := 1; type := "day" |}) [] (Normal tt)],
     Normal (Some (dispose "chart"))).
Proof. by vm_compute. Qed.

(** A chart without any of the six properties: four [TypeError]s, the
    all-failed entry, and a fifth [TypeError] from [setSymbol] that ends in
    the outer [catch]. *)
Example run_no_entry_point :
  let chart : Chart unit := scripted None None None None None None in
  reports (out_of (GraphComponent_mounted (Some chart) (empty_env tt))) =
    [LogEntry [Str "Chart initialized:"; ChartObj];
     LogEntry [Str "Sample data:"; Ref 1];
     LogEntry [Str "setDataLoader failed, trying alternative methods:";
               Err (TypeError "chart.setDataLoader is not a function")];
     LogEntry [Str "applyNewData failed:";
               Err (TypeError "chart.applyNewData is not a function")];
     LogEntry [Str "setData failed:";
               Err (TypeError "chart.setData is not a function")];
     LogEntry [Str "loadData failed:";
               Err (TypeError "chart.loadData is not a function")];
     ErrorEntry [Str "All data loading methods failed"];
     ErrorEntry [Str "Error setting up chart:";
                 Err (TypeError "chart.setSymbol is not a function")]].
Proof. by vm_compute. Qed.

(** A chart that asks the loader for bars once, on registration: it prints
    the entry of [getBars] and ends up holding the ten bars of the source. *)
Example run_pulling_chart :
  let run := GraphComponent_mounted (Some (pulling_chart 1 tt)) (empty_env []) in
  widget (env_of run) = [sampleData]
  ∧ out_of run =
      [Console (LogEntry [Str "Chart initialized:"; ChartObj]);
       Console (LogEntry [Str "Sample data:"; Ref 1]);
       Invoke call_setDataLoader
         [LogEntry [Str "getBars called, providing data..."]] (Normal tt);
       Console (LogEntry [Str "setDataLoader called successfully"]);
       Invoke (call_setSymbol {| ticker := "TestSymbol" |}) [] (Normal tt);
       Invoke (call_setPeriod {| span := 1; type := "day" |}) [] (Normal tt)].
Proof. by vm_compute. Qed.

(** * The claims *)

(** C1.  On every chart that is not [null] and every series, the trace is
    the two opening entries, then a fallback chain over [setDataLoader],
    [applyNewData], [setData], [loadData] in that order, then the
    configuration calls, and it is a true record of what the chart did:
    every attempt of the trace was made on the entry point it names, in the
    environment the attempts before it left, and completed as that entry
    point did.  So an entry point is attempted exactly when all the earlier
    ones were attempted and threw; some attempt returns exactly when some
    entry point of the chart, called in turn, returns; at most one attempt
    returns; and an entry point returned exactly when the console reports
    it as called successfully. *)
Theorem strategies_tried_in_order {W} (chart : Chart W) data σ :
  let l := fresh (dom (heap σ)) in
  let run := GraphComponent_effect (Some chart) data σ in
  let evs := out_of run in
  let T := strategy_invocations evs in
  (∃ S C, evs = prologue l ++ S ++ C
          ∧ strategy_chain (strategies l) S ∧ config_tail C)
  ∧ performs chart l (allocated σ data) evs (env_of run)
  ∧ strategy_succeeded evs
    = bool_decide (is_Some (winner chart l (strategies l) (allocated σ data)))
  ∧ T.*1 `prefix_of` strategies l
  ∧ (∀ i, i < 4 →
       i < length T ↔ ∀ j, j < i → ∃ c e, T !! j = Some (c, Throw e))
  ∧ length (filter (λ i, returned i.2 = true) T) ≤ 1
  ∧ (∀ c, c ∈ strategies l →
       (c, Normal tt) ∈ T ↔ success_report c ∈ reports evs).
Proof.
  intros l run evs T.
  destruct (effect_performs chart data σ) as (S & C & σ' & HS & HC & Hperf & Hrun).
  fold l in HS, Hperf, Hrun.
  assert (Hevs : evs = prologue l ++ S ++ C) by (unfold evs, run; by rewrite Hrun).
  assert (Henv : env_of run = σ') by (unfold run; by rewrite Hrun).
  assert (HT : T = invocations S).
  { unfold T. rewrite Hevs. by apply strategy_invocations_shape. }
  split; [by eauto|].
  split; [rewrite Hevs, Henv; by apply performs_prologue|].
  split.
  { rewrite Hevs. clear Hevs HT Hrun Henv. clearbody evs run.
    destruct HC; invert_chain; simpl in Hperf; invert_performs;
      unfold strategies; simpl; unfold env_of, completion_of; simpl;
      repeat match goal with
      | E : call_result _ _ _ _ = _ |- _ =>
          rewrite E; clear E; unfold env_of, completion_of; simpl
      end; reflexivity. }
  rewrite HT. split; [by apply (chain_calls_prefix _ _ HS)|].
  split; [|split; [by apply (chain_at_most_one_success _ _ HS)|]].
  - intros i Hi. split.
    + intros Hlen j Hj.
      destruct (lookup_lt_is_Some_2 (invocations S) i Hlen) as [[c r] Hc].
      by apply (chain_only_after_failures _ _ HS i c r).
    + by apply (chain_attempted_after_failures _ _ HS).
  - rewrite Hevs, !reports_app. clear Hevs HT Hrun Henv Hperf.
    intros c Hc. destruct HC; invert_chain; simpl.
    all: unfold strategies in Hc; repeat setoid_rewrite elem_of_cons;
      repeat setoid_rewrite elem_of_nil;
      repeat (apply elem_of_cons in Hc as [->|Hc]); [..|by apply elem_of_nil in Hc];
      simpl; intuition discriminate.
Qed.

(** C2, as stated, fails: what the effect returns on a chart none of whose
    entry points exists is the cleanup function, the value it returns on a
    chart all of whose entry points work; the value returned carries no
    failure and does not tell the two runs apart. *)
Lemma all_failed_returns_cleanup :
  let failing : Chart unit := scripted None None None None None None in
  let working : Chart unit :=
    scripted (Some (Normal tt)) (Some (Normal tt)) (Some (Normal tt))
             (Some (Normal tt)) (Some (Normal tt)) (Some (Normal tt)) in
  let run_failing := GraphComponent_effect (Some failing) sampleData (empty_env tt) in
  let run_working := GraphComponent_effect (Some working) sampleData (empty_env tt) in
  winner failing 1%positive (strategies 1%positive) (allocated (empty_env tt) sampleData) = None
  ∧ strategy_succeeded (out_of run_failing) = false
  ∧ strategy_succeeded (out_of run_working) = true
  ∧ completion_of run_failing = Normal (Some (dispose "chart"))
  ∧ completion_of run_failing = completion_of run_working.
Proof. repeat split; by vm_compute. Qed.

(** C2, amended.  On a chart whose four data-loading entry points, called in
    turn, each throw, the effect calls all four in order, writes each value
    thrown to the console in its failure entry, in that order, then the
    all-failed error entry; it goes on to the configuration calls, made on
    the chart in the environment the fourth attempt left; and it returns
    the cleanup function, as it does after a success. *)
Theorem all_strategies_failed {W} (chart : Chart W) data σ
    σ1 p1 e1 σ2 p2 e2 σ3 p3 e3 σ4 p4 e4 :
  let l := fresh (dom (heap σ)) in
  let run := GraphComponent_effect (Some chart) data σ in
  call_result chart l call_setDataLoader (allocated σ data) = (σ1, p1, Throw e1) →
  call_result chart l (call_applyNewData l) σ1 = (σ2, p2, Throw e2) →
  call_result chart l (call_setData l) σ2 = (σ3, p3, Throw e3) →
  call_result chart l (call_loadData l) σ3 = (σ4, p4, Throw e4) →
  ∃ C,
    out_of run =
      prologue l ++
      [Invoke call_setDataLoader p1 (Throw e1);
       Console (LogEntry [Str "setDataLoader failed, trying alternative methods:"; Err e1]);
       Invoke (call_applyNewData l) p2 (Throw e2);
       Console (LogEntry [Str "applyNewData failed:"; Err e2]);
       Invoke (call_setData l) p3 (Throw e3);
       Console (LogEntry [Str "setData failed:"; Err e3]);
       Invoke (call_loadData l) p4 (Throw e4);
       Console (LogEntry [Str "loadData failed:"; Err e4]);
       Console (ErrorEntry [Str "All data loading methods failed"])] ++ C
    ∧ config_tail C
    ∧ performs chart l σ4 C (env_of run)
    ∧ strategy_invocations (out_of run) =
        [(call_setDataLoader, Throw e1); (call_applyNewData l, Throw e2);
         (call_setData l, Throw e3); (call_loadData l, Throw e4)]
    ∧ completion_of run = Normal (Some (dispose "chart")).
Proof.
  intros l run H1 H2 H3 H4.
  destruct (effect_performs chart data σ) as (S & C & σ' & HS & HC & Hperf & Hrun).
  fold l in HS, Hperf, Hrun. subst run. rewrite Hrun. clear Hrun.
  unfold out_of, completion_of, env_of. simpl.
  exists C.
  invert_chain; simpl in Hperf; invert_performs; agree_calls.
  split_and!; try done.
  by destruct HC.
Qed.

(** C2, amended, on a chart without any entry point, run on the bars of the
    source. *)
Lemma all_strategies_failed_witness :
  let chart : Chart unit := scripted None None None None None None in
  let σ := empty_env tt in
  let l := fresh (dom (heap σ)) in
  let σ0 := allocated σ sampleData in
  let run := GraphComponent_effect (Some chart) sampleData σ in
  call_result chart l call_setDataLoader σ0
    = (σ0, [], Throw (not_a_function call_setDataLoader))
  ∧ call_result chart l (call_applyNewData l) σ0
    = (σ0, [], Throw (not_a_function (call_applyNewData l)))
  ∧ call_result chart l (call_setData l) σ0
    = (σ0, [], Throw (not_a_function (call_setData l)))
  ∧ call_result chart l (call_loadData l) σ0
    = (σ0, [], Throw (not_a_function (call_loadData l)))
  ∧ ∃ C,
    out_of run =
      prologue l ++
      [Invoke call_setDataLoader [] (Throw (not_a_function call_setDataLoader));
       Console (LogEntry [Str "setDataLoader failed, trying alternative methods:";
                          Err (not_a_function call_setDataLoader)]);
       Invoke (call_applyNewData l) [] (Throw (not_a_function (call_applyNewData l)));
       Console (LogEntry [Str "applyNewData failed:";
                          Err (not_a_function (call_applyNewData l))]);
       Invoke (call_setData l) [] (Throw (not_a_function (call_setData l)));
       Console (LogEntry [Str "setData failed:";
                          Err (not_a_function (call_setData l))]);
       Invoke (call_loadData l) [] (Throw (not_a_function (call_loadData l)));
       Console (LogEntry [Str "loadData failed:";
                          Err (not_a_function (call_loadData l))]);
       Console (ErrorEntry [Str "All data loading methods failed"])] ++ C
    ∧ config_tail C
    ∧ performs chart l σ0 C (env_of run)
    ∧ strategy_invocations (out_of run) =
        [(call_setDataLoader, Throw (not_a_function call_setDataLoader));
         (call_applyNewData l, Throw (not_a_function (call_applyNewData l)));
         (call_setData l, Throw (not_a_function (call_setData l)));
         (call_loadData l, Throw (not_a_function (call_loadData l)))]
    ∧ completion_of run = Normal (Some (dispose "chart")).
Proof.
  intros chart σ l σ0 run.
  assert (H1 : call_result chart l call_setDataLoader σ0
               = (σ0, [], Throw (not_a_function call_setDataLoader))) by reflexivity.
  assert (H2 : call_result chart l (call_applyNewData l) σ0
               = (σ0, [], Throw (not_a_function (call_applyNewData l)))) by reflexivity.
  assert (H3 : call_result chart l (call_setData l) σ0
               = (σ0, [], Throw (not_a_function (call_setData l)))) by reflexivity.
  assert (H4 : call_result chart l (call_loadData l) σ0
               = (σ0, [], Throw (not_a_function (call_loadData l)))) by reflexivity.
  split_and!; [exact H1|exact H2|exact H3|exact H4|].
  exact (all_strategies_failed chart sampleData σ _ _ _ _ _ _ _ _ _ _ _ _ H1 H2 H3 H4).
Defined.

(** C3.  Whatever the chart is ([null] included) and however its entry
    points behave, the effect completes normally: with [undefined] for a
    [null] chart and with the cleanup function otherwise. *)
Theorem effect_never_throws {W} (chart : option (Chart W)) data σ :
  completion_of (GraphComponent_effect chart data σ) =
    Normal (match chart with
            | None => None
            | Some _ => Some (dispose "chart")
            end).
Proof.
  destruct chart as [chart|]; [|done].
  destruct (effect_shape chart data σ) as (S & C & _ & _ & ->). done.
Qed.

(** C4.  On a [null] chart the effect writes one error entry to the
    console and returns at once with [undefined] instead of the cleanup
    function; it calls nothing on the chart and leaves the environment as
    it found it. *)
Theorem null_chart_aborts {W} data (σ : Env W) :
  let run := GraphComponent_effect None data σ in
  run = (σ, [Console (ErrorEntry [Str "Failed to initialize KLineChart"])], Normal None)
  ∧ invocations (out_of run) = []
  ∧ env_of run = σ.
Proof. done. Qed.

(** C5, as the spec states it, fails: on a chart without any data-loading
    entry point that accepts a symbol and a period, no strategy succeeds
    and both configuration calls are made all the same, and return. *)
Lemma config_calls_without_success :
  let chart : Chart unit :=
    scripted None None None None (Some (Normal tt)) (Some (Normal tt)) in
  let evs := out_of (GraphComponent_effect (Some chart) sampleData (empty_env tt)) in
  strategy_succeeded evs = false
  ∧ config_invocations evs =
      [(call_setSymbol the_symbol, Normal tt); (call_setPeriod the_period, Normal tt)]
  ∧ ¬ (config_attempted evs = true ↔ strategy_succeeded evs = true).
Proof.
  intros chart evs. split; [by vm_compute|]. split; [by vm_compute|].
  intros [H _]. by discriminate H.
Qed.

(** C5, amended.  On every chart that is not [null], once the fallback
    chain has ended, however it ended, the effect calls [setSymbol] on the
    chart, in the environment the chain left; it calls [setPeriod] next, in
    the environment [setSymbol] left, exactly when [setSymbol] returned; a
    throw of either ends the run with the set-up error entry.  The calls of
    a run are its data-loading calls followed by these. *)
Theorem config_calls_follow_chain {W} (chart : Chart W) data σ :
  let l := fresh (dom (heap σ)) in
  let run := GraphComponent_effect (Some chart) data σ in
  let evs := out_of run in
  (∃ S σs,
     strategy_chain (strategies l) S
     ∧ performs chart l (allocated σ data) S σs
     ∧ let sym := call_result chart l (call_setSymbol the_symbol) σs in
       let per := call_result chart l (call_setPeriod the_period) (env_of sym) in
       evs = prologue l ++ S ++
             Invoke (call_setSymbol the_symbol) (out_of sym) (completion_of sym)
             :: match completion_of sym with
                | Throw e => [Console (setup_error_report e)]
                | Normal _ =>
                    Invoke (call_setPeriod the_period) (out_of per) (completion_of per)
                    :: match completion_of per with
                       | Throw e => [Console (setup_error_report e)]
                       | Normal _ => []
                       end
                end
       ∧ env_of run = match completion_of sym with
                      | Throw _ => env_of sym
                      | Normal _ => env_of per
                      end)
  ∧ invocations evs = strategy_invocations evs ++ config_invocations evs
  ∧ ((∃ e, config_invocations evs = [(call_setSymbol the_symbol, Throw e)])
     ∨ (∃ r, config_invocations evs =
               [(call_setSymbol the_symbol, Normal tt); (call_setPeriod the_period, r)])).
Proof.
  intros l run evs.
  destruct (effect_performs chart data σ) as (S & C & σ' & HS & HC & Hperf & Hrun).
  fold l in HS, Hperf, Hrun.
  assert (Hevs : evs = prologue l ++ S ++ C) by (unfold evs, run; by rewrite Hrun).
  assert (Henv : env_of run = σ') by (unfold run; by rewrite Hrun).
  clearbody evs run. subst evs. clear Hrun. split.
  - assert (∃ σs, performs chart l (allocated σ data) S σs
                  ∧ performs chart l σs C σ') as (σs & HpS & HpC).
    { clear HC. invert_chain; simpl in Hperf; invert_performs;
        eexists; (split; [|eassumption]);
        repeat (first [eapply performs_invoke; [eassumption|]
                      |eapply performs_console
                      |eapply performs_nil]). }
    exists S, σs. split; [done|]. split; [done|]. cbv zeta.
    rewrite Henv. clear Hperf HpS HS Henv.
    destruct HC; invert_performs;
      repeat match goal with
      | E : call_result _ _ _ _ = _ |- _ =>
          rewrite E; clear E; unfold env_of, out_of, completion_of; simpl
      end; done.
  - clear Hperf Henv. destruct HC; invert_chain; simpl; (split; [reflexivity|]); by eauto.
Qed.

(** C6, as the spec states it, fails: on a chart whose [setDataLoader]
    returns, whose [setSymbol] throws and whose [setPeriod] would return,
    the data-loading succeeds, and [setPeriod] is never called. *)
Lemma period_skipped_when_symbol_fails :
  let chart : Chart unit :=
    scripted (Some (Normal tt)) None None None
             (Some (Throw (Raised "unknown symbol"))) (Some (Normal tt)) in
  let evs := out_of (GraphComponent_effect (Some chart) sampleData (empty_env tt)) in
  strategy_succeeded evs = true
  ∧ invocations evs =
      [(call_setDataLoader, Normal tt);
       (call_setSymbol the_symbol, Throw (Raised "unknown symbol"))]
  ∧ call_setPeriod the_period ∉ calls evs.
Proof.
  intros chart evs. split; [by vm_compute|]. split; [by vm_compute|].
  assert (calls evs = [call_setDataLoader; call_setSymbol the_symbol]) as ->
    by (by vm_compute).
  rewrite !elem_of_cons, elem_of_nil. intuition discriminate.
Qed.

(** C6, amended.  When some data-loading entry point [c] of the chart,
    called in turn, is the first to return, the run records the attempts
    before it as throws, then the call of [c] as returning, then the entry
    that reports [c] as called successfully; [setSymbol] is then called on
    the chart, [setPeriod] after it only if [setSymbol] returned, and a
    throw of either is written to the console as a set-up error with the
    value thrown, after which nothing more is called.  The trace is a true
    record of what the chart did, the console never reports that all
    methods failed, and the effect returns normally. *)
Theorem config_after_success {W} (chart : Chart W) data σ c :
  let l := fresh (dom (heap σ)) in
  let run := GraphComponent_effect (Some chart) data σ in
  let evs := out_of run in
  winner chart l (strategies l) (allocated σ data) = Some c →
  ∃ S0 printed C,
    evs = prologue l ++ S0
          ++ [Invoke c printed (Normal tt); Console (success_report c)] ++ C
    ∧ c ∈ strategies l
    ∧ Forall (λ i, returned i.2 = false) (invocations S0)
    ∧ config_tail C
    ∧ performs chart l (allocated σ data) evs (env_of run)
    ∧ (all_failed_report ∉ reports evs)
    ∧ completion_of run = Normal (Some (dispose "chart")).
Proof.
  intros l run evs Hwin.
  destruct (effect_performs chart data σ) as (S & C & σ' & HS & HC & Hperf & Hrun).
  fold l in HS, Hperf, Hrun.
  assert (Hevs : evs = prologue l ++ S ++ C) by (unfold evs, run; by rewrite Hrun).
  assert (Henv : env_of run = σ') by (unfold run; by rewrite Hrun).
  assert (Hret : completion_of run = Normal (Some (dispose "chart")))
    by (unfold run; by rewrite Hrun).
  clearbody evs run. subst evs. clear Hrun. rewrite Henv. clear Henv.
  assert (∃ S0 printed,
            S = S0 ++ [Invoke c printed (Normal tt); Console (success_report c)]
            ∧ c ∈ strategies l
            ∧ Forall (λ i, returned i.2 = false) (invocations S0)
            ∧ all_failed_report ∉ reports S) as (S0 & printed & HSeq & Hc & HS0 & Hnot).
  { pose proof Hperf as Hperf'. clear HC.
    unfold strategies in Hwin. simpl in Hwin.
    invert_chain; simpl in Hperf'; invert_performs;
      repeat match goal with
      | E : call_result _ _ _ _ = _ |- _ =>
          rewrite E in Hwin; unfold env_of, completion_of in Hwin; simpl in Hwin
      end; simplify_eq.
    - exists [], printed. split_and!; [done| |constructor|];
        unfold strategies; simpl; rewrite !elem_of_cons, ?elem_of_nil;
        [by eauto|intuition discriminate].
    - eexists [_; _], _. split_and!; [done| |repeat constructor|];
        unfold strategies; simpl; rewrite !elem_of_cons, ?elem_of_nil;
        [by eauto|intuition discriminate].
    - eexists [_; _; _; _], _. split_and!; [done| |repeat constructor|];
        unfold strategies; simpl; rewrite !elem_of_cons, ?elem_of_nil;
        [by eauto|intuition discriminate].
    - eexists [_; _; _; _; _; _], _. split_and!; [done| |repeat constructor|];
        unfold strategies; simpl; rewrite !elem_of_cons, ?elem_of_nil;
        [by eauto 6|intuition discriminate]. }
  exists S0, printed, C. split_and!; try done.
  - by rewrite HSeq, <- app_assoc.
  - by apply performs_prologue.
  - rewrite !reports_app, !elem_of_app. intros [Hp|[HS'|HC']].
    + simpl in Hp. rewrite !elem_of_cons, elem_of_nil in Hp. intuition discriminate.
    + by apply Hnot.
    + destruct HC; simpl in HC'; rewrite ?elem_of_cons, ?elem_of_nil in HC';
        intuition discriminate.
Qed.

(** C6, amended, on a chart that takes the data loader and pulls once. *)
Lemma config_after_success_witness :
  let chart : Chart (list Series) := pulling_chart 1 tt in
  let σ := empty_env [] in
  let l := fresh (dom (heap σ)) in
  let c := call_setDataLoader in
  let run := GraphComponent_effect (Some chart) sampleData σ in
  let evs := out_of run in
  winner chart l (strategies l) (allocated σ sampleData) = Some c
  ∧ ∃ S0 printed C,
    evs = prologue l ++ S0
          ++ [Invoke c printed (Normal tt); Console (success_report c)] ++ C
    ∧ c ∈ strategies l
    ∧ Forall (λ i, returned i.2 = false) (invocations S0)
    ∧ config_tail C
    ∧ performs chart l (allocated σ sampleData) evs (env_of run)
    ∧ (all_failed_report ∉ reports evs)
    ∧ completion_of run = Normal (Some (dispose "chart")).
Proof.
  intros chart σ l c run evs.
  assert (H : winner chart l (strategies l) (allocated σ sampleData) = Some c)
    by (vm_compute; reflexivity).
  split; [exact H|].
  exact (config_after_success chart sampleData σ c H).
Defined.


(** C8, as stated, fails for some charts: when [applyNewData] cuts the array
    down to one bar before it throws, the array that [setData] then receives
    holds that one bar, not the ten it was allocated with. *)
Lemma truncated_series_reaches_setData :
  let σ := empty_env [] in
  let l := fresh (dom (heap σ)) in
  let run := GraphComponent_effect (Some truncating_chart) sampleData σ in
  invocations (out_of run) =
    [(call_setDataLoader, Throw (not_a_function call_setDataLoader));
     (call_applyNewData l, Throw (Raised "rejected"));
     (call_setData l, Normal tt);
     (call_setSymbol the_symbol, Normal tt);
     (call_setPeriod the_period, Normal tt)]
  ∧ widget (env_of run) = [take 1 sampleData]
  ∧ heap (env_of run) !! l = Some (take 1 sampleData)
  ∧ take 1 sampleData ≠ sampleData.
Proof.
  intros σ l run. split_and!; [by vm_compute..|].
  intros H. by apply (f_equal length) in H.
Qed.

(** C8, amended.  The effect itself never writes to the series.  It
    allocates one array for it under a reference nothing else held, every
    call that carries data carries that reference, and the trace is a true
    record of calls on the chart: the environment changes through those
    calls and through nothing else.  On a chart whose methods leave that
    array alone, the array therefore holds the input series before and
    after every call of the run, and at its end. *)
Theorem series_never_mutated {W} (chart : Chart W) data σ :
  let l := fresh (dom (heap σ)) in
  let run := GraphComponent_effect (Some chart) data σ in
  let evs := out_of run in
  heap σ !! l = None
  ∧ heap (allocated σ data) !! l = Some data
  ∧ Forall (λ c, c ∈ strategies l ++ configuration) (calls evs)
  ∧ performs chart l (allocated σ data) evs (env_of run)
  ∧ env_of run = replay chart l (calls evs) (allocated σ data)
  ∧ (chart_keeps l chart →
     (∀ n, heap (replay chart l (take n (calls evs)) (allocated σ data)) !! l
           = Some data)
     ∧ heap (env_of run) !! l = Some data).
Proof.
  intros l run evs.
  pose proof (effect_calls_known chart data σ) as Hcalls.
  fold l run evs in Hcalls.
  assert (Hperf : performs chart l (allocated σ data) evs (env_of run)).
  { destruct (effect_performs chart data σ) as (S & C & σ' & _ & _ & Hperf & Hrun).
    unfold evs, run. rewrite Hrun. by apply performs_prologue. }
  pose proof (performs_replay _ _ _ _ _ Hperf) as Henv.
  split_and!; [apply fresh_unallocated|apply allocated_lookup|done|done|done|].
  intros Hkeeps. split.
  - intros n. rewrite replay_keeps; [apply allocated_lookup|done|].
    by apply Forall_take.
  - rewrite Henv, replay_keeps; [apply allocated_lookup|done..].
Qed.

(** C8, amended, on a chart that takes the data loader, pulls once and keeps
    what it received in its own state. *)
Lemma series_never_mutated_witness :
  let chart : Chart (list Series) := pulling_chart 1 tt in
  let σ := empty_env [] in
  let l := fresh (dom (heap σ)) in
  let run := GraphComponent_effect (Some chart) sampleData σ in
  let evs := out_of run in
  chart_keeps l chart
  ∧ (∀ n, heap (replay chart l (take n (calls evs)) (allocated σ sampleData)) !! l
          = Some sampleData)
  ∧ heap (env_of run) !! l = Some sampleData.
Proof.
  intros chart σ l run evs.
  assert (H : chart_keeps l chart) by (repeat split; intros ?; reflexivity).
  split; [exact H|].
  destruct (series_never_mutated chart sampleData σ) as (_ & _ & _ & _ & _ & Hkept).
  exact (Hkept H).
Defined.



(** * Further properties of the effect and of the component *)

(** X1.  The effect writes to the console with [console.error] exactly when
    no data-loading entry point of the chart, called in turn, returns, or a
    configuration call threw; the trace this is read from is the fallback
    chain with the configuration calls, and a true record of what the chart
    did. *)
Theorem error_entry_iff_failure {W} (chart : Chart W) data σ :
  let l := fresh (dom (heap σ)) in
  let run := GraphComponent_effect (Some chart) data σ in
  let evs := out_of run in
  (∃ S C, evs = prologue l ++ S ++ C
          ∧ strategy_chain (strategies l) S ∧ config_tail C)
  ∧ performs chart l (allocated σ data) evs (env_of run)
  ∧ existsb is_error_entry (reports evs)
    = negb (bool_decide (is_Some (winner chart l (strategies l) (allocated σ data))))
      || config_failed evs.
Proof.
  intros l run evs.
  destruct (effect_performs chart data σ) as (S & C & σ' & HS & HC & Hperf & Hrun).
  fold l in HS, Hperf, Hrun.
  assert (Hevs : evs = prologue l ++ S ++ C) by (unfold evs, run; by rewrite Hrun).
  assert (Henv : env_of run = σ') by (unfold run; by rewrite Hrun).
  clearbody evs run. subst evs. clear Hrun. rewrite Henv. clear Henv.
  split; [by eauto|]. split; [by apply performs_prologue|].
  destruct HC; invert_chain; simpl in Hperf; invert_performs;
    unfold strategies; simpl; unfold env_of, completion_of; simpl;
    repeat match goal with
    | E : call_result _ _ _ _ = _ |- _ =>
        rewrite E; clear E; unfold env_of, completion_of; simpl
    end; reflexivity.
Qed.

(** X2.  No thrown value is swallowed and none is made up: the trace is a
    true record of what the chart did, and the values its console entries
    show are exactly the values the calls on the chart threw, each once and
    in the order thrown. *)
Theorem thrown_values_reported {W} (chart : Chart W) data σ :
  let l := fresh (dom (heap σ)) in
  let run := GraphComponent_effect (Some chart) data σ in
  let evs := out_of run in
  (∃ S C, evs = prologue l ++ S ++ C
          ∧ strategy_chain (strategies l) S ∧ config_tail C)
  ∧ performs chart l (allocated σ data) evs (env_of run)
  ∧ reported_errors (reports evs) = thrown_values (invocations evs).
Proof.
  intros l run evs.
  destruct (effect_performs chart data σ) as (S & C & σ' & HS & HC & Hperf & Hrun).
  fold l in HS, Hperf, Hrun.
  assert (Hevs : evs = prologue l ++ S ++ C) by (unfold evs, run; by rewrite Hrun).
  assert (Henv : env_of run = σ') by (unfold run; by rewrite Hrun).
  clearbody evs run. subst evs. clear Hrun. rewrite Henv. clear Henv.
  split; [by eauto|]. split; [by apply performs_prologue|].
  clear Hperf. destruct HC; invert_chain; reflexivity.
Qed.

(** X3.  No entry point of the chart is called twice in a run: the calls
    made on the chart, which are what changes the environment, are taken in
    order from [setDataLoader], [applyNewData], [setData], [loadData],
    [setSymbol], [setPeriod], each at most once, and there are at least two
    and at most six of them. *)
Theorem no_entry_point_called_twice {W} (chart : Chart W) data σ :
  let l := fresh (dom (heap σ)) in
  let run := GraphComponent_effect (Some chart) data σ in
  let evs := out_of run in
  performs chart l (allocated σ data) evs (env_of run)
  ∧ env_of run = replay chart l (calls evs) (allocated σ data)
  ∧ NoDup (method_name <$> calls evs)
  ∧ calls evs `sublist_of` strategies l ++ configuration
  ∧ 2 ≤ length (calls evs) ≤ 6.
Proof.
  intros l run evs.
  destruct (effect_performs chart data σ) as (S & C & σ' & HS & HC & Hperf & Hrun).
  fold l in HS, Hperf, Hrun.
  assert (Hevs : evs = prologue l ++ S ++ C) by (unfold evs, run; by rewrite Hrun).
  assert (Henv : env_of run = σ') by (unfold run; by rewrite Hrun).
  clearbody evs run. subst evs. clear Hrun. rewrite Henv. clear Henv.
  assert (Hp : performs chart l (allocated σ data) (prologue l ++ S ++ C) σ')
    by (by apply performs_prologue).
  split; [done|]. split; [by apply performs_replay|].
  clear Hperf Hp. unfold strategies, configuration.
  destruct HC; invert_chain; simpl; (split; [|split; [|lia]]).
  all: try (repeat (apply NoDup_cons; split;
                    [rewrite ?elem_of_cons, elem_of_nil; intuition discriminate|]);
            apply NoDup_nil_2).
  all: repeat first [apply sublist_nil | apply sublist_skip | apply sublist_cons].
Qed.

Lemma invoke_ext {W X X'} c name (m : option (Method W X))
    (m' : option (Method W X')) x x' σ :
  same_behaviour ((λ f, f x) <$> m) ((λ f, f x') <$> m') →
  invoke c name m' x' σ = invoke c name m x σ.
Proof.
  unfold invoke. destruct m as [f|], m' as [f'|]; simpl; try done.
  intros H. by rewrite H.
Qed.

Ltac run_invoke_of chart :=
  match goal with
  | |- context [invoke ?c ?n (?proj chart) ?x ?σ] =>
      let E := fresh "E" in
      destruct (invoke_shape c n (proj chart) x σ) as (? & [[]|?] & E);
      rewrite E; simpl
  end.

Ltac follow_invoke chart chart' H :=
  match goal with
  | |- context [invoke ?c ?n (?proj chart') ?x ?σ] =>
      rewrite (invoke_ext c n (proj chart) (proj chart') x x σ)
        by (apply (H c); rewrite !elem_of_cons; by eauto 10);
      match goal with
      | E : invoke c n (proj chart) x σ = _ |- _ => rewrite E
      end; simpl
  end.

(** X4.  A run depends on the chart only through the entry points it
    called: a second chart that behaves the same on those, whatever its
    other properties are or do, gives the same run (environment, trace and
    result).  In particular the entry points after the first one that
    returns are not even looked up. *)
Theorem run_depends_on_called_entry_points {W} (chart chart' : Chart W) data σ :
  let l := fresh (dom (heap σ)) in
  let run := GraphComponent_effect (Some chart) data σ in
  (∀ c, c ∈ calls (out_of run) →
        same_behaviour (as_called chart l c) (as_called chart' l c)) →
  GraphComponent_effect (Some chart') data σ = run.
Proof.
  intros l run. subst run.
  unfold GraphComponent_effect, try_catch, bind, alloc,
    console_log, console_error, emit, ret.
  simpl. fold l.
  repeat run_invoke_of chart; intros H; unfold out_of, calls in H; simpl in H;
    repeat follow_invoke chart chart' H; reflexivity.
Qed.

(** X4 on two charts that take the data loader and differ in the entry points
    behind it. *)
Lemma run_depends_on_called_entry_points_witness :
  let chart : Chart unit :=
    scripted (Some (Normal tt)) None None None (Some (Normal tt)) (Some (Normal tt)) in
  let chart' : Chart unit :=
    scripted (Some (Normal tt)) (Some (Throw (Raised "busy"))) (Some (Normal tt)) None
             (Some (Normal tt)) (Some (Normal tt)) in
  let σ := empty_env tt in
  let l := fresh (dom (heap σ)) in
  let run := GraphComponent_effect (Some chart) sampleData σ in
  (∀ c, c ∈ calls (out_of run) →
        same_behaviour (as_called chart l c) (as_called chart' l c))
  ∧ GraphComponent_effect (Some chart') sampleData σ = run.
Proof.
  intros chart chart' σ l run.
  assert (H : ∀ c, c ∈ calls (out_of run) →
                   same_behaviour (as_called chart l c) (as_called chart' l c)).
  { assert (calls (out_of run) =
            [call_setDataLoader; call_setSymbol the_symbol; call_setPeriod the_period])
      as -> by (by vm_compute).
    intros c Hc. rewrite !elem_of_cons, elem_of_nil in Hc.
    destruct Hc as [->|[->|[->|[]]]]; simpl; intros ?; reflexivity. }
  split; [exact H|].
  exact (run_depends_on_called_entry_points chart chart' sampleData σ H).
Defined.

Lemma as_called_None {W X} (m : option (Method W X)) (x : X) :
  (λ f, f x) <$> m = None → m = None.
Proof. by destruct m. Qed.

Lemma as_called_Some {W X} (m : option (Method W X)) (x : X) g :
  (λ f, f x) <$> m = Some g → ∃ f, m = Some f ∧ g = f x.
Proof. destruct m as [f|]; [|done]. intros [= <-]. by eauto. Qed.

Lemma absent_cons {W} (chart : Chart W) l c0 cs :
  (∀ c', c' ∈ c0 :: cs → as_called chart l c' = None) →
  as_called chart l c0 = None ∧ (∀ c', c' ∈ cs → as_called chart l c' = None).
Proof.
  intros H. split; [apply H, elem_of_cons; by left|].
  intros c' Hc'. apply H, elem_of_cons. by right.
Qed.

(** X5.  When the entry points before position [k] are absent and the one
    at position [k] returns on the environment in which the array has just
    been allocated, the data is loaded through that one: the earlier
    attempts fail with the [TypeError] of a missing function, the call at
    [k] returns and is the last data-loading call, its success is written
    to the console and the all-failed entry is not. *)
Theorem first_available_entry_point {W} (chart : Chart W) data σ k c m :
  let l := fresh (dom (heap σ)) in
  let evs := out_of (GraphComponent_effect (Some chart) data σ) in
  strategies l !! k = Some c →
  (∀ c', c' ∈ take k (strategies l) → as_called chart l c' = None) →
  as_called chart l c = Some m →
  completion_of (m (allocated σ data)) = Normal tt →
  strategy_invocations evs =
    ((λ c', (c', Throw (not_a_function c'))) <$> take k (strategies l))
    ++ [(c, Normal tt)]
  ∧ success_report c ∈ reports evs
  ∧ (all_failed_report ∉ reports evs).
Proof.
  intros l evs Hk Habsent Hm Hret. subst evs.
  unfold strategies in Hk, Habsent.
  destruct k as [|[|[|[|k]]]]; simpl in Hk; try done; injection Hk as <-.
  all: simpl in Habsent, Hm.
  all: repeat (apply absent_cons in Habsent as [?Hc Habsent]).
  all: repeat match goal with
       | H : as_called _ _ _ = None |- _ => simpl in H; apply as_called_None in H
       end.
  all: apply as_called_Some in Hm as (f & Hf & ->).
  all: unfold GraphComponent_effect, try_catch, bind, alloc,
         console_log, console_error, emit, ret; simpl; fold l;
       repeat match goal with
       | H : _ = None |- _ => rewrite H; clear H
       | H : _ = Some _ |- _ => rewrite H; clear H
       end; unfold invoke at 1; simpl.
  all: unfold allocated in Hret; fold l in Hret;
       match goal with
       | Hr : completion_of (?g ?x ?s) = Normal tt |- _ =>
           destruct (g x s) as [[σ1 p] r]; simpl in Hr; subst r
       end; simpl.
  all: repeat run_invoke; unfold out_of; simpl.
  all: split; [reflexivity|].
  all: unfold all_failed_report; rewrite !elem_of_cons, !elem_of_nil;
       split; [by eauto 12|intuition discriminate].
Qed.

(** X5 on a chart whose first entry point is [setData]. *)
Lemma first_available_entry_point_witness :
  let chart : Chart unit :=
    scripted None None (Some (Normal tt)) (Some (Normal tt))
             (Some (Normal tt)) (Some (Normal tt)) in
  let σ := empty_env tt in
  let l := fresh (dom (heap σ)) in
  let c := call_setData l in
  let m : M ConsoleEntry unit unit := oblivious (λ w, (w, [], Normal tt)) l in
  let evs := out_of (GraphComponent_effect (Some chart) sampleData σ) in
  strategies l !! 2 = Some c
  ∧ (∀ c', c' ∈ take 2 (strategies l) → as_called chart l c' = None)
  ∧ as_called chart l c = Some m
  ∧ completion_of (m (allocated σ sampleData)) = Normal tt
  ∧ strategy_invocations evs =
      ((λ c', (c', Throw (not_a_function c'))) <$> take 2 (strategies l))
      ++ [(c, Normal tt)]
  ∧ success_report c ∈ reports evs
  ∧ (all_failed_report ∉ reports evs).
Proof.
  intros chart σ l c m evs.
  assert (H1 : strategies l !! 2 = Some c) by reflexivity.
  assert (H2 : ∀ c', c' ∈ take 2 (strategies l) → as_called chart l c' = None).
  { intros c' Hc'. simpl in Hc'. rewrite !elem_of_cons, elem_of_nil in Hc'.
    destruct Hc' as [->|[->|[]]]; reflexivity. }
  assert (H3 : as_called chart l c = Some m) by reflexivity.
  assert (H4 : completion_of (m (allocated σ sampleData)) = Normal tt) by reflexivity.
  split_and!; [exact H1|exact H2|exact H3|exact H4|..];
    apply (first_available_entry_point chart sampleData σ 2 c m H1 H2 H3 H4).
Defined.

(** X6.  [getBars] does not catch what the widget's callback throws.  On a
    chart that asks for the bars while the loader is being registered, the
    [setDataLoader] attempt completes as the callback did, the entry of
    [getBars] having been printed first; when the callback threw, the
    failure is logged with that value and [applyNewData] is attempted next,
    in the environment the callback left behind. *)
Theorem callback_failure_falls_back {W P} (params : GetBarsParams W P)
    m2 m3 m4 m5 m6 data (σ : Env W) :
  let l := fresh (dom (heap σ)) in
  let chart := {|
    setDataLoader := Some (λ loader, getBars loader P params);
    applyNewData := m2; setData := m3; loadData := m4;
    setSymbol := m5; setPeriod := m6 |} in
  let cb := callback params l (allocated σ data) in
  let evs := out_of (GraphComponent_effect (Some chart) data σ) in
  ∃ rest,
    evs = prologue l ++
          Invoke call_setDataLoader
            (LogEntry [Str "getBars called, providing data..."] :: out_of cb)
            (completion_of cb) :: rest
    ∧ match completion_of cb with
      | Normal _ =>
          ∃ C, rest = Console (LogEntry [Str "setDataLoader called successfully"]) :: C
               ∧ config_tail C
      | Throw e =>
          ∃ printed r rest',
            rest = Console (LogEntry [Str "setDataLoader failed, trying alternative methods:";
                                      Err e])
                   :: Invoke (call_applyNewData l) printed r :: rest'
            ∧ invoke (call_applyNewData l) "applyNewData" m2 l (env_of cb)
              = (step_env m2 l (env_of cb), [Invoke (call_applyNewData l) printed r], r)
      end.
Proof.
  intros l chart cb evs. subst evs chart cb.
  unfold GraphComponent_effect, try_catch, bind, alloc,
    console_log, console_error, emit, ret.
  cbn -[invoke]. fold l. unfold invoke at 1.
  cbn -[invoke]. unfold bind, console_log, emit, allocated. cbn -[invoke]. fold l.
  destruct (callback params l _) as [[σ1 p] [[]|e]]; cbn -[invoke].
  - repeat run_invoke; unfold out_of, completion_of; simpl;
      (eexists; split; [reflexivity|]); eexists; (split; [reflexivity|]);
      constructor.
  - destruct (invoke_shape (call_applyNewData l) "applyNewData" m2 l σ1)
      as (p2 & r2 & E2).
    unfold env_of, out_of, completion_of. cbn -[invoke]. rewrite E2.
    destruct r2 as [[]|e2]; simpl; repeat run_invoke;
      (eexists; split; [reflexivity|]); by eauto.
Qed.




Lemma lift_effect_out {W A} (m : M Event W A) σ :
  lift_effect m σ = (env_of (m σ), Effect <$> out_of (m σ), completion_of (m σ)).
Proof. unfold lift_effect. by destruct (m σ) as [[σ1 evs] r]. Qed.

Lemma effect_completion {W} (chart : option (Chart W)) data σ :
  completion_of (GraphComponent_effect chart data σ) =
    Normal (match chart with Some _ => Some (dispose "chart") | None => None end).
Proof.
  destruct chart as [chart|]; [|done].
  by destruct (effect_shape chart data σ) as (S & C & _ & _ & ->).
Qed.

Lemma useEffect_run {W}
    (init : string → M ConsoleEntry W (option (Chart W))) data σ :
  let started := init "chart" σ in
  GraphComponent_useEffect init data σ =
    match completion_of started with
    | Throw e =>
        (env_of started,
         [Library (lib_init "chart") (out_of started) (Some e)],
         Throw e)
    | Normal chart =>
        let body := GraphComponent_effect chart data (env_of started) in
        (env_of body,
         Library (lib_init "chart") (out_of started) None :: (Effect <$> out_of body),
         completion_of body)
    end.
Proof.
  intros started. subst started.
  unfold GraphComponent_useEffect, bind, library.
  destruct (init "chart" σ) as [[σ1 printed] [chart|e]]; [|done].
  by rewrite lift_effect_out.
Qed.

(** X8.  [init("chart")] is called outside the [try]: the callback throws
    exactly when [init] throws, and then with the same value.  In that case
    the call of [init] is the only step: nothing is written to the console
    by the effect, nothing is called on a chart, no cleanup is returned.
    When [init] returns, the callback returns: [undefined] for [null], the
    cleanup function otherwise. *)
Theorem init_failure_escapes {W}
    (init : string → M ConsoleEntry W (option (Chart W))) data σ :
  let started := init "chart" σ in
  let run := GraphComponent_useEffect init data σ in
  completion_of run =
    match completion_of started with
    | Throw e => Throw e
    | Normal None => Normal None
    | Normal (Some _) => Normal (Some (dispose "chart"))
    end
  ∧ ∀ e, completion_of started = Throw e →
         run = (env_of started,
                [Library (lib_init "chart") (out_of started) (Some e)],
                Throw e).
Proof.
  intros started run. subst run. rewrite useEffect_run. fold started.
  destruct (completion_of started) as [chart|e] eqn:Hstarted.
  - split; [|done]. cbv zeta.
    change (completion_of (?a, ?b, ?c)) with c.
    rewrite effect_completion. by destruct chart.
  - split; [done|]. by intros ? [= <-].
Qed.

Lemma lib_calls_effect evs : lib_calls (Effect <$> evs) = [].
Proof. unfold lib_calls. induction evs as [|ev evs IH]; [done|]. by simpl. Qed.

Lemma lib_calls_app s1 s2 : lib_calls (s1 ++ s2) = lib_calls s1 ++ lib_calls s2.
Proof. apply omap_app. Qed.

(** X9.  Over the life of the component the library is called with the id
    of the element the component renders, and with no other: [init] once,
    first; [dispose] once, last, after every step of the effect, exactly
    when [init] returned a chart.  When [init] returned [null] or threw,
    [dispose] is never called. *)
Theorem dispose_matches_init {W}
    (init : string → M ConsoleEntry W (option (Chart W)))
    (lib_dispose_fn : Method W string) data σ :
  let id := element_id GraphComponent_render in
  let started := init "chart" σ in
  let run := mount_then_unmount init lib_dispose_fn data σ in
  lib_calls (out_of run) =
    lib_init id :: match completion_of started with
                   | Normal (Some _) => [lib_dispose id]
                   | _ => []
                   end
  ∧ match completion_of started with
    | Normal (Some chart) =>
        let body := GraphComponent_effect (Some chart) data (env_of started) in
        let disposed := lib_dispose_fn id (env_of body) in
        run = (env_of disposed,
               Library (lib_init id) (out_of started) None
               :: (Effect <$> out_of body)
               ++ [Library (lib_dispose id) (out_of disposed)
                     (thrown_of (completion_of disposed))],
               completion_of disposed)
    | Normal None =>
        run = (env_of started,
               [Library (lib_init id) (out_of started) None;
                Effect (Console (ErrorEntry [Str "Failed to initialize KLineChart"]))],
               Normal tt)
    | Throw e =>
        run = (env_of started,
               [Library (lib_init id) (out_of started) (Some e)],
               Throw e)
    end.
Proof.
  intros id started run. subst id run.
  unfold mount_then_unmount, bind. rewrite useEffect_run. fold started.
  change (element_id GraphComponent_render) with "chart".
  destruct (completion_of started) as [[chart|]|e] eqn:Hstarted; cbv zeta.
  - destruct (effect_shape chart data (env_of started)) as (S & C & _ & _ & Hrun).
    rewrite Hrun.
    change (env_of (?a, ?b, ?c)) with a.
    change (out_of (?a, ?b, ?c)) with b.
    change (completion_of (?a, ?b, ?c)) with c.
    cbv beta iota. unfold run_cleanup, library.
    destruct (lib_dispose_fn "chart" _) as [[σ2 printed] r].
    change (env_of (?a, ?b, ?c)) with a.
    change (out_of (?a, ?b, ?c)) with b.
    change (completion_of (?a, ?b, ?c)) with c.
    split; [|done].
    rewrite lib_calls_app. simpl. by rewrite lib_calls_effect.
  - done.
  - done.
Qed.
